(** * Embedding of the chat-room / recipe HTTP API (projeto13-batepapo-uol-api)

    Two server variants live in the repository:
    - [App]     : src/src/app.js        (chat API with markup sanitisation)
    - [Part000] : src/unnamed/part_000  (earlier chat API plus recipe routes)

    Both share one document store with the collections [participants],
    [messages] and [receitas].  The store is modelled as lists of JSON
    documents in natural (insertion) order; every store operation succeeds
    (the [catch] branches mapping driver failures to 500 are not reached).
    A request handler is a function from its inputs and the store to the
    response it sends and the resulting store.  Strings are the UTF-8
    bytes of the JavaScript strings. *)

From Stdlib Require Import String Ascii ZArith List Bool Lia.
Import ListNotations.
Open Scope string_scope.
Open Scope Z_scope.
Set Warnings "-register-all".

(** ** JSON values as JavaScript holds them after [express.json()]
    (numbers as integers: no claim depends on fractional numbers). *)
Inductive jsval : Type :=
| JNull
| JBool (b : bool)
| JNum (z : Z)
| JStr (s : string)
| JOid (n : N)                         (* bson ObjectId *)
| JArr (l : list jsval)
| JObj (kvs : list (string * jsval)).

(** A JS object / store document: keys in insertion order, unique. *)
Definition doc := list (string * jsval).

Fixpoint jsval_eqb (a b : jsval) : bool :=
  match a, b with
  | JNull, JNull => true
  | JBool x, JBool y => Bool.eqb x y
  | JNum x, JNum y => Z.eqb x y
  | JStr x, JStr y => String.eqb x y
  | JOid x, JOid y => N.eqb x y
  | JArr xs, JArr ys =>
      (fix go (xs ys : list jsval) : bool :=
         match xs, ys with
         | [], [] => true
         | x :: xs', y :: ys' => jsval_eqb x y && go xs' ys'
         | _, _ => false
         end) xs ys
  | JObj xs, JObj ys =>
      (fix go (xs ys : list (string * jsval)) : bool :=
         match xs, ys with
         | [], [] => true
         | (k, x) :: xs', (k', y) :: ys' =>
             String.eqb k k' && jsval_eqb x y && go xs' ys'
         | _, _ => false
         end) xs ys
  | _, _ => false
  end.

(** [obj.k] : [None] is [undefined]. *)
Fixpoint lookup (k : string) (o : doc) : option jsval :=
  match o with
  | [] => None
  | (k', v) :: o' => if String.eqb k k' then Some v else lookup k o'
  end.

(** [obj.k = v] : an existing key keeps its position, a new key goes last. *)
Fixpoint obj_set (o : doc) (k : string) (v : jsval) : doc :=
  match o with
  | [] => [(k, v)]
  | (k', v') :: o' =>
      if String.eqb k k' then (k, v) :: o' else (k', v') :: obj_set o' k v
  end.

(** [{ ...base, ...ext }] *)
Definition obj_assign (base ext : doc) : doc :=
  fold_left (fun acc kv => obj_set acc (fst kv) (snd kv)) ext base.

(** Decimal rendering of an array index, for spreading an array. *)
Fixpoint digits_of_nat (fuel n : nat) (acc : string) : string :=
  match fuel with
  | O => acc
  | S fuel' =>
      let d := String (ascii_of_nat (48 + Nat.modulo n 10)) acc in
      if Nat.ltb n 10 then d else digits_of_nat fuel' (Nat.div n 10) d
  end.

Definition string_of_nat (n : nat) : string := digits_of_nat (S n) n "".

(** The own enumerable properties a spread [{...v}] copies. *)
Definition spread_fields (v : jsval) : doc :=
  match v with
  | JObj kvs => kvs
  | JArr l => combine (map string_of_nat (seq 0 (length l))) l
  | _ => []
  end.

Definition body_get (body : jsval) (k : string) : option jsval :=
  lookup k (spread_fields body).

Definition get_str (body : jsval) (k : string) : option string :=
  match body_get body k with Some (JStr s) => Some s | _ => None end.

(** ** White space as [String.prototype.trim] and [parseInt] skip it.
    A JavaScript string is held as its UTF-8 bytes.  ECMA-262's
    WhiteSpace and LineTerminator code points: TAB, LF, VT, FF, CR, SP,
    U+00A0, U+1680, U+2000-U+200A, U+2028, U+2029, U+202F, U+205F, U+3000
    and U+FEFF, each given by its UTF-8 byte sequence. *)
Definition js_space_utf8 : list (list nat) :=
  [ [9]; [10]; [11]; [12]; [13]; [32];
    [194; 160];
    [225; 154; 128];
    [226; 128; 128]; [226; 128; 129]; [226; 128; 130]; [226; 128; 131];
    [226; 128; 132]; [226; 128; 133]; [226; 128; 134]; [226; 128; 135];
    [226; 128; 136]; [226; 128; 137]; [226; 128; 138];
    [226; 128; 168]; [226; 128; 169]; [226; 128; 175];
    [226; 129; 159];
    [227; 128; 128];
    [239; 187; 191] ]%nat.

(** [s] without the bytes [p] in front, if [s] starts with them. *)
Fixpoint strip_prefix (p : list nat) (s : string) : option string :=
  match p, s with
  | [], _ => Some s
  | b :: p', String c s' =>
      if Nat.eqb (nat_of_ascii c) b then strip_prefix p' s' else None
  | _ :: _, EmptyString => None
  end.

(** Drops one leading sequence of [seqs], if there is one. *)
Fixpoint drop_one (seqs : list (list nat)) (s : string) : option string :=
  match seqs with
  | [] => None
  | p :: seqs' =>
      match strip_prefix p s with
      | Some s' => Some s'
      | None => drop_one seqs' s
      end
  end.

(** Drops leading sequences of [seqs] while there are some; each step drops
    at least one byte, so [fuel = length s] is enough. *)
Fixpoint drop_all (seqs : list (list nat)) (fuel : nat) (s : string) : string :=
  match fuel with
  | O => s
  | S fuel' =>
      match drop_one seqs s with
      | Some s' => drop_all seqs fuel' s'
      | None => s
      end
  end.

Definition trim_start (s : string) : string :=
  drop_all js_space_utf8 (String.length s) s.

Definition string_rev (s : string) : string :=
  string_of_list_ascii (rev (list_ascii_of_string s)).

(** Trailing white space: leading white space of the byte-reversed string,
    whose sequences are reversed too. *)
Definition trim_end (s : string) : string :=
  string_rev (drop_all (map (@rev nat) js_space_utf8) (String.length s) (string_rev s)).

Definition js_trim (s : string) : string := trim_end (trim_start s).

(** ** [parseInt(s)] with no radix (ECMA-262 19.2.5): [None] is [NaN].
    Leading white space, an optional sign, a [0x]/[0X] prefix switching to
    radix 16, then the longest prefix of radix digits. *)
Definition digit_val (c : ascii) : option Z :=
  let n := Z.of_nat (nat_of_ascii c) in
  if (48 <=? n) && (n <=? 57) then Some (n - 48)
  else if (97 <=? n) && (n <=? 122) then Some (n - 87)
  else if (65 <=? n) && (n <=? 90) then Some (n - 55)
  else None.

Fixpoint digits_prefix (radix : Z) (s : string) (acc : Z) (seen : bool)
  : option Z :=
  match s with
  | String c s' =>
      match digit_val c with
      | Some d => if d <? radix then digits_prefix radix s' (acc * radix + d) true
                  else if seen then Some acc else None
      | None => if seen then Some acc else None
      end
  | EmptyString => if seen then Some acc else None
  end.

Definition parse_int (input : string) : option Z :=
  let s := trim_start input in
  let '(sign, s) :=
    match s with
    | String "-" s' => (-1, s')
    | String "+" s' => (1, s')
    | _ => (1, s)
    end in
  let '(radix, s) :=
    match s with
    | String "0" (String "x" s') => (16, s')
    | String "0" (String "X" s') => (16, s')
    | _ => (10, s)
    end in
  match digits_prefix radix s 0 false with
  | Some m => Some (sign * m)
  | None => None
  end.

(** ** [Array.prototype.slice(start)] after [ToIntegerOrInfinity(start)]. *)
Definition js_slice_from {A} (start : Z) (l : list A) : list A :=
  let len := Z.of_nat (length l) in
  let from := if start <? 0 then Z.max (len + start) 0 else Z.min start len in
  skipn (Z.to_nat from) l.

(** ** The document store (MongoDB as the handlers use it) *)

(** Query filters used by the handlers. *)
Inductive query : Type :=
| FEq (k : string) (q : jsval)         (* { k: q } *)
| FLt (k : string) (n : Z)             (* { k: { $lt: n } } *)
| FOr (fs : list query)               (* { $or: [...] } *)
| FAnd (fs : list query).             (* { $and: [...] } *)

(** Equality match: the field equals [q], or is an array with an element
    equal to [q]; [{k: null}] also matches documents without [k]. *)
Definition eq_match (v : option jsval) (q : jsval) : bool :=
  match v with
  | Some v =>
      jsval_eqb v q
      || match v with JArr l => existsb (jsval_eqb q) l | _ => false end
  | None => match q with JNull => true | _ => false end
  end.

Definition lt_match (v : option jsval) (n : Z) : bool :=
  match v with
  | Some (JNum z) => z <? n
  | Some (JArr l) =>
      existsb (fun e => match e with JNum z => z <? n | _ => false end) l
  | _ => false
  end.

Fixpoint matches (f : query) (d : doc) : bool :=
  match f with
  | FEq k q => eq_match (lookup k d) q
  | FLt k n => lt_match (lookup k d) n
  | FOr fs => existsb (fun g => matches g d) fs
  | FAnd fs => forallb (fun g => matches g d) fs
  end.

Inductive coll := Participants | Messages | Receitas.

Record store : Type := mkStore {
  participants : list doc;
  messages : list doc;
  receitas : list doc;
  next_oid : N                          (* source of fresh ObjectIds *)
}.

Definition get_coll (c : coll) (st : store) : list doc :=
  match c with
  | Participants => participants st
  | Messages => messages st
  | Receitas => receitas st
  end.

Definition put_coll (c : coll) (l : list doc) (st : store) : store :=
  match c with
  | Participants => mkStore l (messages st) (receitas st) (next_oid st)
  | Messages => mkStore (participants st) l (receitas st) (next_oid st)
  | Receitas => mkStore (participants st) (messages st) l (next_oid st)
  end.

(** [find(f).toArray()] *)
Definition find (f : query) (c : coll) (st : store) : list doc :=
  filter (matches f) (get_coll c st).

(** [findOne(f)] *)
Definition find_one (f : query) (c : coll) (st : store) : option doc :=
  List.find (matches f) (get_coll c st).

(** [insertOne(d)]: the driver adds a fresh [_id] when [d] has none. *)
Definition insert_one (c : coll) (d : doc) (st : store) : store :=
  let d' := match lookup "_id" d with
            | Some _ => d
            | None => ("_id", JOid (next_oid st)) :: d
            end in
  let st' := put_coll c (get_coll c st ++ [d']) st in
  mkStore (participants st') (messages st') (receitas st') (N.succ (next_oid st)).

(** [deleteMany(f)] *)
Definition delete_many (f : query) (c : coll) (st : store) : store :=
  put_coll c (filter (fun d => negb (matches f d)) (get_coll c st)) st.

(** [deleteOne(f)]: removes the first match. *)
Fixpoint delete_first (f : query) (l : list doc) : list doc :=
  match l with
  | [] => []
  | d :: l' => if matches f d then l' else d :: delete_first f l'
  end.

Definition delete_one (f : query) (c : coll) (st : store) : store :=
  put_coll c (delete_first f (get_coll c st)) st.

(** [deleteOne(f)] with its [deletedCount]. *)
Definition delete_one_result (f : query) (c : coll) (st : store) : N * store :=
  ((if existsb (matches f) (get_coll c st) then 1 else 0)%N, delete_one f c st).

(** [updateOne(f, { $set: sets })]: updates the first match; returns
    whether a document matched ([matchedCount > 0]). *)
Fixpoint update_first (f : query) (sets : doc) (l : list doc)
  : bool * list doc :=
  match l with
  | [] => (false, [])
  | d :: l' =>
      if matches f d then (true, obj_assign d sets :: l')
      else let '(b, l'') := update_first f sets l' in (b, d :: l'')
  end.

Definition update_one (f : query) (sets : doc) (c : coll) (st : store)
  : bool * store :=
  let '(b, l) := update_first f sets (get_coll c st) in (b, put_coll c l st).

(** ** Responses *)
Inductive response : Type :=
| SendStatus (code : Z)                 (* res.sendStatus(code) *)
| SendDocs (code : Z) (ds : list doc)   (* res.send(array) *)
| SendText (code : Z) (t : string)      (* res.status(code).send(text) *)
| SendErrors (code : Z)                 (* res.status(422).send(joi details) *)
| SendErr (code : Z)                    (* res.status(500).send(err.message) *)
| Unhandled.                            (* an exception escapes the handler *)

(** ** Joi schemas used by the handlers.  A key rule receives the key's
    value ([None] = undefined). *)
Definition joi_string_required (v : option jsval) : bool :=
  match v with Some (JStr s) => negb (String.eqb s "") | _ => false end.

Definition joi_any_required (v : option jsval) : bool :=
  match v with Some _ => true | None => false end.

(** [Joi.valid(...vals).required()] *)
Definition joi_valid_required (vals : list jsval) (v : option jsval) : bool :=
  match v with Some x => existsb (jsval_eqb x) vals | None => false end.

(** [Joi.allow(...vals)]: adds [vals] to the accepted values of [Joi.any()],
    which already accepts every value, and the key stays optional. *)
Definition joi_allow (vals : list jsval) (v : option jsval) : bool := true.

(** [Joi.object(schema).validate(o)]: [o] must be an object, every key of
    [o] must be declared, every declared rule must hold. *)
Definition joi_object (schema : list (string * (option jsval -> bool)))
  (o : jsval) : bool :=
  match o with
  | JObj kvs =>
      forallb (fun kv => existsb (fun r => String.eqb (fst kv) (fst r)) schema) kvs
      && forallb (fun r => snd r (lookup (fst r) kvs)) schema
  | _ => false
  end.

(** External collaborators: [stripHtml(s).result] (string-strip-html),
    [new ObjectId(id)] (bson; [None] when it throws) and
    [dayjs(t).format("HH:mm:ss")]. *)
Record deps : Type := mkDeps {
  stripHtml : string -> string;
  ObjectId : string -> option N;
  format_time : Z -> string
}.

(** [schemaParticipant], the same in both variants. *)
Definition schemaParticipant : list (string * (option jsval -> bool)) :=
  [("name", joi_string_required)].

(** The [GET /messages] filter, the same in both variants; [u] is the
    [user] header as it goes into the query. *)
Definition visibility (u : jsval) : query :=
  FOr [ FEq "type" (JStr "message");
        FEq "to" (JStr "Todos");
        FAnd [ FEq "type" (JStr "private_message");
               FOr [FEq "to" u; FEq "from" u] ] ].

(** [message.from !== s] is false exactly when [from] is the string [s]. *)
Definition strict_eq_str (v : option jsval) (s : string) : bool :=
  match v with Some (JStr s') => String.eqb s' s | _ => false end.

(** * src/src/app.js *)
Module App.
Section Handlers.
Variable X : deps.

(** [stripHtml(s).result.trim()] *)
Definition sanitize (s : string) : string := js_trim (stripHtml X s).

Definition schemaMessage : list (string * (option jsval -> bool)) :=
  [ ("from", joi_any_required);
    ("to", joi_string_required);
    ("text", joi_string_required);
    ("type", joi_valid_required [JStr "message"; JStr "private_message"]) ].

(** [app.post("/participants")]; [Date.now()] is read twice: [now] for
    [lastStatus], then [now'] for the status message, after the awaited
    participant insert. *)
Definition post_participants (body : jsval) (now now' : Z) (st : store)
  : response * store :=
  if negb (joi_object schemaParticipant body) then (SendStatus 422, st) else
  match get_str body "name" with
  | None => (Unhandled, st)
  | Some raw =>
      let name := sanitize raw in
      match find_one (FEq "name" (JStr name)) Participants st with
      | Some _ => (SendStatus 409, st)
      | None =>
          let participant := [("name", JStr name); ("lastStatus", JNum now)] in
          let st1 := insert_one Participants participant st in
          let message := [ ("from", JStr name); ("to", JStr "Todos");
                           ("text", JStr "entra na sala...");
                           ("type", JStr "status");
                           ("time", JStr (format_time X now')) ] in
          let st2 := insert_one Messages message st1 in
          (SendStatus 201, st2)
      end
  end.

(** [app.post("/messages")]; [user] is [req.headers.user]. *)
Definition post_messages (user : option string) (body : jsval) (now : Z)
  (st : store) : response * store :=
  match user with
  | None => (SendStatus 422, st)
  | Some u =>
      let name := sanitize u in
      match find_one (FEq "name" (JStr name)) Participants st with
      | None => (SendStatus 422, st)
      | Some _ =>
          let validated := JObj (obj_assign [("from", JStr u)] (spread_fields body)) in
          if negb (joi_object schemaMessage validated) then (SendStatus 422, st) else
          match get_str body "to", get_str body "text", get_str body "type" with
          | Some to, Some text, Some ty =>
              let sanitizedParams :=
                [ ("from", JStr name); ("to", JStr (sanitize to));
                  ("text", JStr (sanitize text)); ("type", JStr (sanitize ty)) ] in
              let message :=
                obj_assign sanitizedParams [("time", JStr (format_time X now))] in
              (SendStatus 201, insert_one Messages message st)
          | _, _, _ => (Unhandled, st)
          end
      end
  end.

(** [app.get("/messages")]; [limit] is [req.query.limit]. *)
Definition get_messages (user : option string) (limit : option string)
  (st : store) : response :=
  match user with
  | None => Unhandled                   (* stripHtml(undefined) throws *)
  | Some u =>
      let name := sanitize u in
      match find_one (FEq "name" (JStr name)) Participants st with
      | None => SendStatus 409
      | Some _ =>
          let ms := find (visibility (JStr u)) Messages st in
          match limit with
          | None => SendDocs 200 (rev ms)
          | Some l =>
              match parse_int l with
              | None => SendStatus 422
              | Some n =>
                  if n <=? 0 then SendStatus 422
                  else SendDocs 200 (rev (js_slice_from (- n) ms))
              end
          end
      end
  end.

Definition leave_message (now : Z) (p : doc) : doc :=
  [ ("from", match lookup "name" p with Some v => v | None => JNull end);
    ("to", JStr "Todos"); ("text", JStr "sai da sala...");
    ("type", JStr "status"); ("time", JStr (format_time X now)) ].

(** [removeInactiveParticipants], run once at time [now]; the inserts of
    the [forEach] run in the order of the fetched snapshot. *)
Definition removeInactiveParticipants (now : Z) (st : store) : store :=
  let participants := find (FLt "lastStatus" (now - 10000)) Participants st in
  if Nat.leb (length participants) 0 then st else
  let st1 := delete_many (FLt "lastStatus" (now - 10000)) Participants st in
  fold_left (fun acc p => insert_one Messages (leave_message now p) acc)
    participants st1.

(** [app.delete("/messages/:id")] *)
Definition delete_message (id : string) (user : option string) (st : store)
  : response * store :=
  match user with
  | None => (Unhandled, st)
  | Some u =>
      let name := sanitize u in
      match ObjectId X id with
      | None => (SendErr 500, st)
      | Some oid =>
          match find_one (FEq "_id" (JOid oid)) Messages st with
          | None => (SendStatus 404, st)
          | Some message =>
              if negb (strict_eq_str (lookup "from" message) name)
              then (SendStatus 401, st)
              else (SendStatus 200, delete_one (FEq "_id" (JOid oid)) Messages st)
          end
      end
  end.

(** [app.put("/messages/:id")] *)
Definition put_message (id : string) (user : option string) (body : jsval)
  (st : store) : response * store :=
  match user with
  | None => (Unhandled, st)
  | Some u =>
      let name := sanitize u in
      match find_one (FEq "name" (JStr name)) Participants st with
      | None => (SendStatus 422, st)
      | Some _ =>
          let validated := JObj (obj_assign [("from", JStr name)] (spread_fields body)) in
          if negb (joi_object schemaMessage validated) then (SendStatus 422, st) else
          match get_str body "to", get_str body "text", get_str body "type" with
          | Some to, Some text, Some ty =>
              let sanitizedParams :=
                [ ("from", JStr name); ("to", JStr (sanitize to));
                  ("text", JStr (sanitize text)); ("type", JStr (sanitize ty)) ] in
              match ObjectId X id with
              | None => (SendErr 500, st)
              | Some oid =>
                  match find_one (FEq "_id" (JOid oid)) Messages st with
                  | None => (SendStatus 404, st)
                  | Some message =>
                      if negb (strict_eq_str (lookup "from" message) u)
                      then (SendStatus 401, st)
                      else
                        let '(_, st') :=
                          update_one (FEq "_id" (JOid oid)) sanitizedParams Messages st in
                        (SendStatus 200, st')
                  end
              end
          | _, _, _ => (Unhandled, st)
          end
      end
  end.


(** [app.get("/participants")] *)
Definition get_participants (st : store) : response :=
  SendDocs 200 (find (FAnd []) Participants st).   (* [find()]: empty filter *)

(** [app.post("/status")]; [Date.now()] is read as [now]. *)
Definition post_status (user : option string) (now : Z) (st : store)
  : response * store :=
  match user with
  | None => (SendStatus 404, st)
  | Some u =>
      let name := sanitize u in
      let '(matched, st') :=
        update_one (FEq "name" (JStr name)) [("lastStatus", JNum now)] Participants st in
      if matched then (SendStatus 200, st') else (SendStatus 404, st')
  end.

End Handlers.
End App.

(** * src/unnamed/part_000 *)
Module Part000.
Section Handlers.
Variable X : deps.

(** The [user] header inside a query: the driver serialises [undefined]
    as [null]. *)
Definition user_val (user : option string) : jsval :=
  match user with Some u => JStr u | None => JNull end.

Definition schemaMessage : list (string * (option jsval -> bool)) :=
  [ ("to", joi_string_required);
    ("text", joi_string_required);
    ("type", joi_allow [JStr "message"; JStr "private_message"]);
    ("from", joi_any_required) ].

(** [app.post("/participants")]; [Date.now()] is read as [now] for
    [lastStatus] and as [now'] for the status message. *)
Definition post_participants (body : jsval) (now now' : Z) (st : store)
  : response * store :=
  let name := body_get body "name" in
  if negb (joi_object schemaParticipant body) then (SendErrors 422, st) else
  match name with
  | None => (Unhandled, st)
  | Some name =>
      match find_one (FEq "name" name) Participants st with
      | Some _ => (SendText 409 "Participant already exist!", st)
      | None =>
          let participant := [("name", name); ("lastStatus", JNum now)] in
          let st1 := insert_one Participants participant st in
          let message := [ ("from", name); ("to", JStr "Todos");
                           ("text", JStr "entra na sala...");
                           ("type", JStr "status");
                           ("time", JStr (format_time X now')) ] in
          let st2 := insert_one Messages message st1 in
          (SendStatus 201, st2)
      end
  end.

(** [app.post("/messages")] *)
Definition post_messages (user : option string) (body : jsval) (now : Z)
  (st : store) : response * store :=
  match find_one (FEq "name" (user_val user)) Participants st with
  | None => (SendText 409 "Participant do not exist!", st)
  | Some _ =>
      (* [{ ...req.body, from: user }]; [from: undefined] fails [required] *)
      let valid :=
        match user with
        | Some u => joi_object schemaMessage
                      (JObj (obj_assign (spread_fields body) [("from", JStr u)]))
        | None => false
        end in
      if negb valid then (SendErrors 422, st) else
      let message :=
        obj_assign (obj_assign [("from", user_val user)] (spread_fields body))
          [("time", JStr (format_time X now))] in
      (SendStatus 201, insert_one Messages message st)
  end.

(** [app.get("/messages")]: the list of writes the handler makes on the
    response, in order.  [parseInt] never yields [undefined] and [typeof]
    of its result is always ["number"], so those two tests never fire;
    [slice(-NaN)] is [slice(0)].  After the first write the handler falls
    through to a second [try] that reads the undeclared [id]: the
    [ReferenceError] is caught and [res.status(500).send] throws because
    the headers were already sent. *)
Definition get_messages (user : option string) (limit : option string)
  (st : store) : list response :=
  let limit := match limit with Some l => parse_int l | None => None end in
  match find_one (FEq "name" (user_val user)) Participants st with
  | None => [SendText 409 "Participant do not exist!"]
  | Some _ =>
      let ms := find (visibility (user_val user)) Messages st in
      match limit with
      | Some n =>
          if n <=? 0 then [SendStatus 422]
          else [SendDocs 200 (rev (js_slice_from (- n) ms)); Unhandled]
      | None => [SendDocs 200 (rev (js_slice_from 0 ms)); Unhandled]
      end
  end.

(** [app.delete("/receitas/muitas/:filtroIngredientes")] *)
Definition delete_receitas_muitas (filtroIngredientes : string) (st : store)
  : response * store :=
  (SendStatus 204,
   delete_many (FEq "ingredientes" (JStr filtroIngredientes)) Receitas st).

(** [app.put("/receitas/:id")]: absent fields are set to [undefined],
    which the driver stores as [null]. *)
Definition put_receita (id : string) (body : jsval) (st : store)
  : response * store :=
  match ObjectId X id with
  | None => (SendErr 500, st)
  | Some oid =>
      let field k := match body_get body k with Some v => v | None => JNull end in
      let '(matched, st') :=
        update_one (FEq "_id" (JOid oid))
          [ ("titulo", field "titulo"); ("preparo", field "preparo");
            ("ingredientes", field "ingredientes") ] Receitas st in
      if matched then (SendText 200 "Receita atualizada!", st')
      else (SendText 404 "esse item não existe!", st')
  end.


(** [app.delete("/receitas/:id")] *)
Definition delete_receita (id : string) (st : store) : response * store :=
  match ObjectId X id with
  | None => (SendErr 500, st)
  | Some oid =>
      let '(deletedCount, st') := delete_one_result (FEq "_id" (JOid oid)) Receitas st in
      if N.eqb deletedCount 0 then (SendText 404 "Essa receita não existe!", st')
      else (SendText 204 "Receita deletada com sucesso!", st')
  end.

End Handlers.

(** What the client receives: the first write. *)
Definition delivered (ws : list response) : option response := hd_error ws.

End Part000.

(** * Concrete collaborators, for evaluating the handlers on inputs *)

(** [stripHtml(s).result] on plain text and simple tags: every [<...>]
    segment is dropped. *)
Fixpoint strip_tags (in_tag : bool) (s : string) : string :=
  match s with
  | EmptyString => EmptyString
  | String c s' =>
      if in_tag then strip_tags (negb (Ascii.eqb c ">")) s'
      else if Ascii.eqb c "<" then strip_tags true s'
      else String c (strip_tags false s')
  end.

(** [new ObjectId(hex)] for 24 hexadecimal digits. *)
Fixpoint hex_value (s : string) (acc : N) : option N :=
  match s with
  | EmptyString => Some acc
  | String c s' =>
      match digit_val c with
      | Some d => if d <? 16 then hex_value s' (16 * acc + Z.to_N d)%N else None
      | None => None
      end
  end.

Definition object_id_hex (id : string) : option N :=
  if Nat.eqb (String.length id) 24 then hex_value id 0 else None.

Definition two_digits (n : Z) : string :=
  String (ascii_of_nat (48 + Z.to_nat (n / 10)))
    (String (ascii_of_nat (48 + Z.to_nat (n mod 10))) "").

(** [dayjs(t).format("HH:mm:ss")] in UTC. *)
Definition hhmmss (t : Z) : string :=
  let s := t / 1000 in
  two_digits ((s / 3600) mod 24) ++ ":" ++ two_digits ((s / 60) mod 60) ++ ":"
  ++ two_digits (s mod 60).

Definition deps_model : deps := mkDeps (strip_tags false) object_id_hex hhmmss.

(** * The spec's vocabulary *)

(** [m.k == s], with the store's equality match. *)
Definition field_is (m : doc) (k s : string) : bool :=
  eq_match (lookup k m) (JStr s).

(** The three-clause visibility predicate as the spec words it. *)
Definition visible_spec (u : string) (m : doc) : bool :=
  field_is m "type" "message"
  || field_is m "to" "Todos"
  || (field_is m "type" "private_message"
      && (field_is m "to" u || field_is m "from" u)).

(** The participants a sweep at [now] fetches ([lastStatus < cutoff]). *)
Definition stale (now : Z) (st : store) : list doc :=
  find (FLt "lastStatus" (now - 10000)) Participants st.

(** Documents as [insertOne] stores them, with fresh ids from [n] on. *)
Fixpoint with_oids (n : N) (ds : list doc) : list doc :=
  match ds with
  | [] => []
  | d :: ds' => (("_id", JOid n) :: d) :: with_oids (N.succ n) ds'
  end.

(** * Fixtures: concrete stores *)

Definition participant_doc (id : N) (name : string) (t : Z) : doc :=
  [("_id", JOid id); ("name", JStr name); ("lastStatus", JNum t)].

Definition message_doc (id : N) (from to text type : string) : doc :=
  [("_id", JOid id); ("from", JStr from); ("to", JStr to); ("text", JStr text);
   ("type", JStr type); ("time", JStr "10:00:00")].

(** Ana, a participant named Todos and Caio; Ana has sent a private
    message to Todos. *)
Definition st_todos : store :=
  mkStore [participant_doc 0 "Ana" 0; participant_doc 1 "Todos" 0;
           participant_doc 2 "Caio" 0]
          [message_doc 3 "Ana" "Todos" "segredo" "private_message"]
          [] 4.

(** Ana and three public messages. *)
Definition st_three : store :=
  mkStore [participant_doc 0 "Ana" 0]
          [message_doc 1 "Ana" "Todos" "um" "message";
           message_doc 2 "Ana" "Todos" "dois" "message";
           message_doc 3 "Ana" "Todos" "tres" "message"]
          [] 4.

(** Ana idle since 0 and Bia active at 15000. *)
Definition st_sweep : store :=
  mkStore [participant_doc 0 "Ana" 0; participant_doc 1 "Bia" 15000] [] [] 2.

Definition st_empty : store := mkStore [] [] [] 0.

(** Ana, no messages. *)
Definition st_ana : store := mkStore [participant_doc 0 "Ana" 0] [] [] 1.

(** Ana, the participant ["<b>Ana</b>"] (part_000 stores names as
    supplied) and a message whose [from] is ["<b>Ana</b>"] (part_000's
    [POST /messages] stores the raw header). *)
Definition st_put : store :=
  mkStore [participant_doc 0 "Ana" 0; participant_doc 1 "<b>Ana</b>" 0]
          [message_doc 5 "<b>Ana</b>" "Todos" "oi" "message"] [] 6.

(** One recipe, id 7. *)
Definition st_recipe : store :=
  mkStore [] []
    [[("_id", JOid 7); ("titulo", JStr "Bolo"); ("preparo", JStr "assar");
      ("ingredientes", JStr "farinha")]] 8.

(** * Properties *)

Lemma visibility_visible_spec (u : string) (m : doc) :
  matches (visibility (JStr u)) m = visible_spec u m.
Proof.
  unfold visibility, visible_spec, field_is; simpl.
  repeat destruct (eq_match _ _); reflexivity.
Qed.

Lemma find_visibility (u : string) (st : store) :
  find (visibility (JStr u)) Messages st = filter (visible_spec u) (messages st).
Proof.
  unfold find; simpl. apply filter_ext. apply visibility_visible_spec.
Qed.

Lemma js_slice_from_0 {A} (l : list A) : js_slice_from 0 l = l.
Proof.
  unfold js_slice_from. simpl.
  replace (Z.min 0 (Z.of_nat (length l))) with 0 by lia. reflexivity.
Qed.

Lemma js_slice_from_neg {A} (n : Z) (l : list A) :
  0 < n -> rev (js_slice_from (- n) l) = firstn (Z.to_nat n) (rev l).
Proof.
  intro Hn. unfold js_slice_from.
  replace (- n <? 0) with true by (symmetry; apply Z.ltb_lt; lia).
  rewrite firstn_rev. f_equal. f_equal. lia.
Qed.

Lemma string_eqb_refl' (s : string) : String.eqb s s = true.
Proof. apply String.eqb_eq. reflexivity. Qed.

Lemma app_get_messages_no_limit (X : deps) (st : store) (u : string) :
  find_one (FEq "name" (JStr (App.sanitize X u))) Participants st <> None ->
  App.get_messages X (Some u) None st
  = SendDocs 200 (rev (filter (visible_spec u) (messages st))).
Proof.
  intro H. unfold App.get_messages.
  destruct (find_one _ _ _); [|contradiction].
  rewrite find_visibility. reflexivity.
Qed.

Lemma app_get_messages_limit (X : deps) (st : store) (u l : string) :
  find_one (FEq "name" (JStr (App.sanitize X u))) Participants st <> None ->
  App.get_messages X (Some u) (Some l) st
  = match parse_int l with
    | Some n =>
        if n <=? 0 then SendStatus 422
        else SendDocs 200
               (firstn (Z.to_nat n) (rev (filter (visible_spec u) (messages st))))
    | None => SendStatus 422
    end.
Proof.
  intro H. unfold App.get_messages.
  destruct (find_one _ _ _); [|contradiction].
  rewrite find_visibility.
  destruct (parse_int l) as [n|]; [|reflexivity].
  case_eq (n <=? 0); intro Hn; [reflexivity|].
  rewrite js_slice_from_neg; [reflexivity|]. apply Z.leb_gt in Hn. lia.
Qed.

Lemma in_firstn_in {A} (n : nat) (l : list A) (x : A) : In x (firstn n l) -> In x l.
Proof.
  intro H. rewrite <- (firstn_skipn n l). apply in_or_app. left. exact H.
Qed.

Lemma visible_spec_private_third (u : string) (m : doc) (a b : string) :
  lookup "type" m = Some (JStr "private_message") ->
  lookup "from" m = Some (JStr a) -> lookup "to" m = Some (JStr b) ->
  b <> "Todos" -> a <> u -> b <> u -> visible_spec u m = false.
Proof.
  intros Ht Hf Hto Hb Ha Hab.
  unfold visible_spec, field_is. rewrite Ht, Hf, Hto. simpl.
  apply String.eqb_neq in Hb. apply String.eqb_neq in Ha.
  apply String.eqb_neq in Hab. rewrite Hb, Ha, Hab. reflexivity.
Qed.

(** ** C1 (as amended) *)

(** C1 (amended).  For a requester [u] (the [user] header) that passes the
    participant lookup, [GET /messages] without [limit] returns, newest
    first, exactly the stored messages satisfying the three-clause
    predicate with [u] (equality being the store's equality match), in
    both variants; every [message]-type message satisfies it, and a
    [private_message] from [a] to [b] does not when [b] is not ["Todos"]
    and [u] is neither [a] nor [b]. *)
Theorem c1_visibility_amended (X : deps) (st : store) (u : string) :
  (find_one (FEq "name" (JStr (App.sanitize X u))) Participants st <> None ->
   App.get_messages X (Some u) None st
   = SendDocs 200 (rev (filter (visible_spec u) (messages st))))
  /\ (find_one (FEq "name" (JStr u)) Participants st <> None ->
      Part000.delivered (Part000.get_messages (Some u) None st)
      = Some (SendDocs 200 (rev (filter (visible_spec u) (messages st)))))
  /\ (forall m, lookup "type" m = Some (JStr "message") ->
      visible_spec u m = true)
  /\ (forall m a b,
      lookup "type" m = Some (JStr "private_message") ->
      lookup "from" m = Some (JStr a) -> lookup "to" m = Some (JStr b) ->
      b <> "Todos" -> a <> u -> b <> u -> visible_spec u m = false).
Proof.
  repeat split.
  - apply app_get_messages_no_limit.
  - intro H. unfold Part000.get_messages, Part000.user_val.
    destruct (find_one _ _ _); [|contradiction].
    rewrite js_slice_from_0, find_visibility. reflexivity.
  - intros m Hm. unfold visible_spec, field_is. rewrite Hm. reflexivity.
  - intros m a b. apply visible_spec_private_third.
Qed.

(** C1 counterexample: a private message from participant Ana to the
    participant named Todos is returned to the third participant Caio. *)
Lemma c1_private_to_Todos_seen_by_third :
  App.get_messages deps_model (Some "Caio") None st_todos
  = SendDocs 200 [message_doc 3 "Ana" "Todos" "segredo" "private_message"].
Proof. vm_compute. reflexivity. Qed.

Lemma c1_visibility_amended_witness :
  find_one (FEq "name" (JStr (App.sanitize deps_model "Caio"))) Participants st_todos
    <> None
  /\ App.get_messages deps_model (Some "Caio") None st_todos
     = SendDocs 200 (rev (filter (visible_spec "Caio") (messages st_todos))).
Proof.
  assert (H : find_one (FEq "name" (JStr (App.sanitize deps_model "Caio")))
                Participants st_todos <> None)
    by (vm_compute; intro E; discriminate E).
  split; [exact H|].
  exact (proj1 (c1_visibility_amended deps_model st_todos "Caio") H).
Defined.

(** ** C4 (as amended) *)

(** C4 (amended), app.js.  For a requester passing the participant lookup
    and a [limit] string [l]: [l] is read with [parseInt] (leading white
    space in the JavaScript sense skipped, Unicode spaces included, an
    optional sign, an optional [0x] prefix, the longest digit prefix); when
    that gives
    NaN or a value [<= 0] the answer is 422, otherwise with [n] the parsed
    value the answer is the [n] newest visible messages, newest first,
    [min(n, total_visible)] of them. *)
Theorem c4_limit_amended (X : deps) (st : store) (u l : string) :
  find_one (FEq "name" (JStr (App.sanitize X u))) Participants st <> None ->
  App.get_messages X (Some u) (Some l) st
  = match parse_int l with
    | Some n =>
        if n <=? 0 then SendStatus 422
        else SendDocs 200
               (firstn (Z.to_nat n) (rev (filter (visible_spec u) (messages st))))
    | None => SendStatus 422
    end
  /\ (forall n, parse_int l = Some n -> 0 < n ->
      length (firstn (Z.to_nat n) (rev (filter (visible_spec u) (messages st))))
      = Nat.min (Z.to_nat n) (length (filter (visible_spec u) (messages st)))).
Proof.
  intro H. split.
  - exact (app_get_messages_limit X st u l H).
  - intros n _ _. rewrite length_firstn, length_rev. reflexivity.
Qed.

(** C4 counterexample: [limit=2.5] is not a positive integer, yet app.js
    answers 200 with the two newest messages. *)
Lemma c4_limit_2_5_accepted :
  App.get_messages deps_model (Some "Ana") (Some "2.5") st_three
  = SendDocs 200 [message_doc 3 "Ana" "Todos" "tres" "message";
                  message_doc 2 "Ana" "Todos" "dois" "message"].
Proof. vm_compute. reflexivity. Qed.

Lemma c4_limit_amended_witness :
  find_one (FEq "name" (JStr (App.sanitize deps_model "Ana"))) Participants st_three
    <> None
  /\ App.get_messages deps_model (Some "Ana") (Some "2") st_three
     = SendDocs 200 [message_doc 3 "Ana" "Todos" "tres" "message";
                     message_doc 2 "Ana" "Todos" "dois" "message"].
Proof.
  assert (H : find_one (FEq "name" (JStr (App.sanitize deps_model "Ana")))
                Participants st_three <> None)
    by (vm_compute; intro E; discriminate E).
  split; [exact H|].
  rewrite (proj1 (c4_limit_amended deps_model st_three "Ana" "2" H)).
  vm_compute. reflexivity.
Defined.

(** ** C10 (as amended) *)

(** C10 (amended), app.js.  When the [user] header [u] differs from its
    sanitised form and that sanitised name passes the participant lookup,
    [GET /messages] filters with the raw [u]: without [limit] it answers
    with all messages visible to [u], with a [limit] it applies the
    [parseInt] rule of C4 to that same list.  Whatever the [limit], a
    private message sent by or addressed to the sanitised name is left out
    of the answer unless it is addressed to ["Todos"] or its other party is
    [u]. *)
Theorem c10_raw_header_amended (X : deps) (st : store) (u : string) :
  App.sanitize X u <> u ->
  find_one (FEq "name" (JStr (App.sanitize X u))) Participants st <> None ->
  App.get_messages X (Some u) None st
  = SendDocs 200 (rev (filter (visible_spec u) (messages st)))
  /\ (forall l,
      App.get_messages X (Some u) (Some l) st
      = match parse_int l with
        | Some n =>
            if n <=? 0 then SendStatus 422
            else SendDocs 200
                   (firstn (Z.to_nat n) (rev (filter (visible_spec u) (messages st))))
        | None => SendStatus 422
        end)
  /\ (forall lim docs m a b,
      App.get_messages X (Some u) lim st = SendDocs 200 docs ->
      lookup "type" m = Some (JStr "private_message") ->
      lookup "from" m = Some (JStr a) -> lookup "to" m = Some (JStr b) ->
      (a = App.sanitize X u /\ b <> u) \/ (b = App.sanitize X u /\ a <> u) ->
      b <> "Todos" ->
      ~ In m docs).
Proof.
  intros Hsan Hex. split; [|split].
  - exact (app_get_messages_no_limit X st u Hex).
  - intro l. exact (app_get_messages_limit X st u l Hex).
  - intros lim docs m a b Hdocs Ht Hf Hto Hcase Hb Hin.
    assert (Hin' : In m (rev (filter (visible_spec u) (messages st)))).
    { destruct lim as [l|].
      - rewrite (app_get_messages_limit X st u l Hex) in Hdocs.
        destruct (parse_int l) as [n|]; [|discriminate].
        destruct (n <=? 0); [discriminate|].
        injection Hdocs as <-. exact (in_firstn_in _ _ _ Hin).
      - rewrite (app_get_messages_no_limit X st u Hex) in Hdocs.
        injection Hdocs as <-. exact Hin. }
    apply in_rev, filter_In in Hin'. destruct Hin' as [_ Hv].
    assert (Ha : a <> u /\ b <> u).
    { destruct Hcase as [[-> Hbu] | [-> Hau]]; split; assumption. }
    destruct Ha as [Ha Hbu].
    rewrite (visible_spec_private_third u m a b Ht Hf Hto Hb Ha Hbu) in Hv.
    discriminate Hv.
Qed.

(** C10 counterexample: the header ["<b>Ana</b>"] differs from its
    sanitised form, passes the lookup as Ana, and Ana's private message to
    Todos is returned. *)
Lemma c10_private_from_sanitized_returned :
  App.sanitize deps_model "<b>Ana</b>" = "Ana"
  /\ App.get_messages deps_model (Some "<b>Ana</b>") None st_todos
     = SendDocs 200 [message_doc 3 "Ana" "Todos" "segredo" "private_message"].
Proof. split; vm_compute; reflexivity. Qed.

Lemma c10_raw_header_amended_witness :
  App.sanitize deps_model "<b>Ana</b>" <> "<b>Ana</b>"
  /\ find_one (FEq "name" (JStr (App.sanitize deps_model "<b>Ana</b>"))) Participants st_todos
     <> None
  /\ App.get_messages deps_model (Some "<b>Ana</b>") (Some "1") st_todos
     = SendDocs 200 [message_doc 3 "Ana" "Todos" "segredo" "private_message"].
Proof.
  assert (H1 : App.sanitize deps_model "<b>Ana</b>" <> "<b>Ana</b>")
    by (vm_compute; intro E; discriminate E).
  assert (H2 : find_one (FEq "name" (JStr (App.sanitize deps_model "<b>Ana</b>")))
                 Participants st_todos <> None)
    by (vm_compute; intro E; discriminate E).
  split; [exact H1|]. split; [exact H2|].
  rewrite (proj1 (proj2 (c10_raw_header_amended deps_model st_todos "<b>Ana</b>" H1 H2)) "1").
  vm_compute. reflexivity.
Defined.

(** ** C3: the presence sweep *)

Lemma leave_message_no_id (X : deps) (now : Z) (p : doc) :
  lookup "_id" (App.leave_message X now p) = None.
Proof. reflexivity. Qed.

Lemma fold_insert_leave (X : deps) (now : Z) (ps : list doc) (st : store) :
  fold_left (fun acc p => insert_one Messages (App.leave_message X now p) acc) ps st
  = mkStore (participants st)
      (messages st ++ with_oids (next_oid st) (map (App.leave_message X now) ps))
      (receitas st) (next_oid st + N.of_nat (length ps)).
Proof.
  revert st. induction ps as [|p ps IH]; intro st.
  - simpl. rewrite app_nil_r, N.add_0_r. destruct st; reflexivity.
  - simpl. rewrite IH. unfold insert_one. rewrite leave_message_no_id. simpl.
    rewrite <- app_assoc. f_equal. lia.
Qed.

(** C3.  One run of the sweep at [now], cutoff [now - 10000]: with no
    participant below the cutoff the store is unchanged; otherwise exactly
    the participants below the cutoff are removed, the others remain, and
    one [status] "sai da sala..." message per fetched participant, stamped
    with the sweep time, is appended to [messages]. *)
Theorem c3_sweep (X : deps) (now : Z) (st : store) :
  (stale now st = [] -> App.removeInactiveParticipants X now st = st)
  /\ (stale now st <> [] ->
      (forall p, In p (participants (App.removeInactiveParticipants X now st))
                 <-> In p (participants st)
                     /\ lt_match (lookup "lastStatus" p) (now - 10000) = false)
      /\ messages (App.removeInactiveParticipants X now st)
         = (messages st
           ++ with_oids (next_oid st) (map (App.leave_message X now) (stale now st)))%list
      /\ receitas (App.removeInactiveParticipants X now st) = receitas st)
  /\ (forall p name, lookup "name" p = Some (JStr name) ->
      App.leave_message X now p
      = [ ("from", JStr name); ("to", JStr "Todos"); ("text", JStr "sai da sala...");
          ("type", JStr "status"); ("time", JStr (format_time X now)) ]).
Proof.
  unfold App.removeInactiveParticipants.
  change (find (FLt "lastStatus" (now - 10000)) Participants st) with (stale now st).
  split; [|split].
  - intro E. rewrite E. reflexivity.
  - intro E. destruct (stale now st) as [|q qs] eqn:Es; [contradiction|].
    simpl Nat.leb. cbv iota. rewrite fold_insert_leave. simpl.
    split; [|split; reflexivity].
    intro p. rewrite filter_In.
    destruct (lt_match _ _); simpl; intuition congruence.
  - intros p name Hn. unfold App.leave_message. rewrite Hn. reflexivity.
Qed.

Lemma c3_sweep_witness :
  stale 20000 st_sweep <> []
  /\ messages (App.removeInactiveParticipants deps_model 20000 st_sweep)
     = with_oids 2 [App.leave_message deps_model 20000 (participant_doc 0 "Ana" 0)].
Proof.
  assert (H : stale 20000 st_sweep <> []) by (vm_compute; intro E; discriminate E).
  split; [exact H|].
  rewrite (proj1 (proj2 (proj1 (proj2 (c3_sweep deps_model 20000 st_sweep)) H))).
  vm_compute. reflexivity.
Defined.

(** ** C5 and C6: joining *)

Lemma joi_participant_name (s : string) :
  joi_object schemaParticipant (JObj [("name", JStr s)]) = negb (String.eqb s "").
Proof. cbn. destruct (String.eqb s ""); reflexivity. Qed.

Lemma find_app_last {A} (f : A -> bool) (l : list A) (d : A) :
  f d = true -> List.find f (l ++ [d]) <> None.
Proof.
  intro Hd. induction l as [|a l IH]; simpl.
  - rewrite Hd. discriminate.
  - destruct (f a); [discriminate | exact IH].
Qed.

Lemma find_one_after_join (st : store) (name : string) (t : Z) (m : doc) :
  find_one (FEq "name" (JStr name)) Participants
    (insert_one Messages m
       (insert_one Participants [("name", JStr name); ("lastStatus", JNum t)] st))
  <> None.
Proof.
  unfold find_one, insert_one. simpl.
  apply find_app_last. simpl. rewrite String.eqb_refl. reflexivity.
Qed.

(** C5.  If a participant with the name being joined already exists, both
    variants answer their conflict code (409; 422 for the empty name,
    which fails validation first) and leave the store unchanged; joining
    twice with the same name gives 201 and then 409. *)
Theorem c5_duplicate_join (X : deps) (t1 t1' t2 t2' : Z) (st : store) (s : string) :
  (find_one (FEq "name" (JStr (App.sanitize X s))) Participants st <> None ->
   App.post_participants X (JObj [("name", JStr s)]) t1 t1' st
   = (SendStatus (if String.eqb s "" then 422 else 409), st))
  /\ (find_one (FEq "name" (JStr s)) Participants st <> None ->
      Part000.post_participants X (JObj [("name", JStr s)]) t1 t1' st
      = (if String.eqb s "" then SendErrors 422
         else SendText 409 "Participant already exist!", st))
  /\ (fst (App.post_participants X (JObj [("name", JStr s)]) t1 t1' st) = SendStatus 201 ->
      let st1 := snd (App.post_participants X (JObj [("name", JStr s)]) t1 t1' st) in
      App.post_participants X (JObj [("name", JStr s)]) t2 t2' st1 = (SendStatus 409, st1))
  /\ (fst (Part000.post_participants X (JObj [("name", JStr s)]) t1 t1' st)
      = SendStatus 201 ->
      let st1 := snd (Part000.post_participants X (JObj [("name", JStr s)]) t1 t1' st) in
      Part000.post_participants X (JObj [("name", JStr s)]) t2 t2' st1
      = (SendText 409 "Participant already exist!", st1)).
Proof.
  unfold App.post_participants, Part000.post_participants.
  rewrite !joi_participant_name.
  destruct (String.eqb s "") eqn:Es; simpl.
  - repeat split; intro H; discriminate H.
  - repeat split.
    + intro H. destruct (find_one _ _ _); [reflexivity | contradiction].
    + intro H. destruct (find_one _ _ _); [reflexivity | contradiction].
    + destruct (find_one (FEq "name" (JStr (App.sanitize X s))) Participants st);
        simpl; intro H; [discriminate H|].
      destruct (find_one _ _ _) eqn:F; [reflexivity|].
      exfalso. exact (find_one_after_join _ _ _ _ F).
    + destruct (find_one (FEq "name" (JStr s)) Participants st);
        simpl; intro H; [discriminate H|].
      destruct (find_one _ _ _) eqn:F; [reflexivity|].
      exfalso. exact (find_one_after_join _ _ _ _ F).
Qed.

Lemma c5_duplicate_join_witness :
  fst (App.post_participants deps_model (JObj [("name", JStr "Ana")]) 0 0 st_empty)
    = SendStatus 201
  /\ App.post_participants deps_model (JObj [("name", JStr "Ana")]) 5 5
       (snd (App.post_participants deps_model (JObj [("name", JStr "Ana")]) 0 0 st_empty))
     = (SendStatus 409,
        snd (App.post_participants deps_model (JObj [("name", JStr "Ana")]) 0 0 st_empty)).
Proof.
  assert (H : fst (App.post_participants deps_model (JObj [("name", JStr "Ana")]) 0 0
                     st_empty) = SendStatus 201) by (vm_compute; reflexivity).
  split; [exact H|].
  exact (proj1 (proj2 (proj2 (c5_duplicate_join deps_model 0 0 5 5 st_empty "Ana"))) H).
Defined.

(** C6 (amended).  A successful join in app.js stores the participant
    under [stripHtml(name).result.trim()] and appends the status message
    [{from: that name, to: "Todos", text: "entra na sala...", type: "status"}];
    part_000 stores both under the name exactly as supplied.  With
    [stripHtml] removing tags, ["<b>Ana</b>"] becomes ["Ana"]. *)
Theorem c6_join_name_amended (X : deps) (now now' : Z) (st : store) (s : string) :
  (fst (App.post_participants X (JObj [("name", JStr s)]) now now' st) = SendStatus 201 ->
   participants (snd (App.post_participants X (JObj [("name", JStr s)]) now now' st))
   = (participants st
      ++ [[("_id", JOid (next_oid st)); ("name", JStr (App.sanitize X s));
           ("lastStatus", JNum now)]])%list
   /\ messages (snd (App.post_participants X (JObj [("name", JStr s)]) now now' st))
      = (messages st
         ++ [[("_id", JOid (N.succ (next_oid st))); ("from", JStr (App.sanitize X s));
              ("to", JStr "Todos"); ("text", JStr "entra na sala...");
              ("type", JStr "status"); ("time", JStr (format_time X now'))]])%list)
  /\ (fst (Part000.post_participants X (JObj [("name", JStr s)]) now now' st)
      = SendStatus 201 ->
      participants (snd (Part000.post_participants X (JObj [("name", JStr s)]) now now' st))
      = (participants st
         ++ [[("_id", JOid (next_oid st)); ("name", JStr s);
              ("lastStatus", JNum now)]])%list
      /\ messages (snd (Part000.post_participants X (JObj [("name", JStr s)]) now now' st))
         = (messages st
            ++ [[("_id", JOid (N.succ (next_oid st))); ("from", JStr s);
                 ("to", JStr "Todos"); ("text", JStr "entra na sala...");
                 ("type", JStr "status"); ("time", JStr (format_time X now'))]])%list)
  /\ App.sanitize deps_model "<b>Ana</b>" = "Ana".
Proof.
  unfold App.post_participants, Part000.post_participants.
  rewrite !joi_participant_name.
  split; [|split; [|reflexivity]];
    destruct (String.eqb s ""); simpl; intro H; try discriminate H;
    destruct (find_one _ _ _); simpl in *; try discriminate H; split; reflexivity.
Qed.

Lemma c6_join_name_amended_witness :
  fst (App.post_participants deps_model (JObj [("name", JStr "<b>Ana</b>")]) 0 0 st_empty)
    = SendStatus 201
  /\ participants
       (snd (App.post_participants deps_model (JObj [("name", JStr "<b>Ana</b>")]) 0 0
               st_empty))
     = [[("_id", JOid 0); ("name", JStr "Ana"); ("lastStatus", JNum 0)]].
Proof.
  assert (H : fst (App.post_participants deps_model (JObj [("name", JStr "<b>Ana</b>")])
                     0 0 st_empty) = SendStatus 201) by (vm_compute; reflexivity).
  split; [exact H|].
  rewrite (proj1 (proj1 (c6_join_name_amended deps_model 0 0 st_empty "<b>Ana</b>") H)).
  vm_compute. reflexivity.
Defined.

(** C6 counterexample: part_000 stores ["<b>Ana</b>"] as it is. *)
Lemma c6_part000_keeps_markup :
  Part000.post_participants deps_model (JObj [("name", JStr "<b>Ana</b>")]) 0 0 st_empty
  = (SendStatus 201,
     mkStore [[("_id", JOid 0); ("name", JStr "<b>Ana</b>"); ("lastStatus", JNum 0)]]
             [[("_id", JOid 1); ("from", JStr "<b>Ana</b>"); ("to", JStr "Todos");
               ("text", JStr "entra na sala..."); ("type", JStr "status");
               ("time", JStr "00:00:00")]] [] 2).
Proof. vm_compute. reflexivity. Qed.

(** ** C2: the stored [from] *)

(** C2 (code defect in part_000).  Posting as Ana with a body [from] of
    "Bia": part_000 spreads the body after [from: user] and stores "Bia";
    app.js stores the header's name "Ana". *)
Theorem c2_part000_stores_body_from :
  Part000.post_messages deps_model (Some "Ana")
    (JObj [("to", JStr "Todos"); ("text", JStr "oi"); ("type", JStr "message");
           ("from", JStr "Bia")]) 0 st_ana
  = (SendStatus 201,
     mkStore (participants st_ana)
       [[("_id", JOid 1); ("from", JStr "Bia"); ("to", JStr "Todos"); ("text", JStr "oi");
         ("type", JStr "message"); ("time", JStr "00:00:00")]] [] 2)
  /\ App.post_messages deps_model (Some "Ana")
       (JObj [("to", JStr "Todos"); ("text", JStr "oi"); ("type", JStr "message");
              ("from", JStr "Bia")]) 0 st_ana
     = (SendStatus 201,
        mkStore (participants st_ana)
          [[("_id", JOid 1); ("from", JStr "Ana"); ("to", JStr "Todos"); ("text", JStr "oi");
            ("type", JStr "message"); ("time", JStr "00:00:00")]] [] 2).
Proof. split; vm_compute; reflexivity. Qed.

(** ** C7: the [type] field *)

(** C7 (code defect in part_000).  [Joi.allow] does not restrict [type]:
    part_000 accepts and stores type "foo", and a body without [type];
    app.js answers 422 to the first and stores nothing. *)
Theorem c7_part000_accepts_any_type :
  Part000.post_messages deps_model (Some "Ana")
    (JObj [("to", JStr "Todos"); ("text", JStr "oi"); ("type", JStr "foo")]) 0 st_ana
  = (SendStatus 201,
     mkStore (participants st_ana)
       [[("_id", JOid 1); ("from", JStr "Ana"); ("to", JStr "Todos"); ("text", JStr "oi");
         ("type", JStr "foo"); ("time", JStr "00:00:00")]] [] 2)
  /\ fst (Part000.post_messages deps_model (Some "Ana")
            (JObj [("to", JStr "Todos"); ("text", JStr "oi")]) 0 st_ana)
     = SendStatus 201
  /\ App.post_messages deps_model (Some "Ana")
       (JObj [("to", JStr "Todos"); ("text", JStr "oi"); ("type", JStr "foo")]) 0 st_ana
     = (SendStatus 422, st_ana).
Proof. repeat split; vm_compute; reflexivity. Qed.

(** ** C8: editing a message *)

(** C8 (code defect in app.js).  The message with id 5 has [from]
    "<b>Ana</b>".  [PUT] with header "<b>Ana</b>" passes the ownership test, which compares the
    raw header, and the [$set] rewrites [from] to the sanitised "Ana";
    [DELETE] by the same header compares the sanitised name and answers
    401. *)
Theorem c8_put_rewrites_from :
  App.put_message deps_model "000000000000000000000005" (Some "<b>Ana</b>")
    (JObj [("to", JStr "Todos"); ("text", JStr "editado"); ("type", JStr "message")])
    st_put
  = (SendStatus 200,
     mkStore (participants st_put)
       [[("_id", JOid 5); ("from", JStr "Ana"); ("to", JStr "Todos");
         ("text", JStr "editado"); ("type", JStr "message"); ("time", JStr "10:00:00")]]
       [] 6)
  /\ App.delete_message deps_model "000000000000000000000005" (Some "<b>Ana</b>") st_put
     = (SendStatus 401, st_put).
Proof. split; vm_compute; reflexivity. Qed.

(** ** C9: deleting recipes by ingredient *)

(** C9 (amended).  [DELETE /receitas/muitas/:f] answers 204 and keeps
    exactly the recipes whose [ingredientes] does not equality-match [f]:
    a string matches when it equals [f] (no substring match), an array
    when one of its elements is [f]; the other collections are unchanged. *)
Theorem c9_delete_by_ingredient_amended (f : string) (st : store) :
  Part000.delete_receitas_muitas f st
  = (SendStatus 204,
     mkStore (participants st) (messages st)
       (filter (fun r => negb (eq_match (lookup "ingredientes" r) (JStr f))) (receitas st))
       (next_oid st))
  /\ (forall i, eq_match (Some (JStr i)) (JStr f) = String.eqb i f)
  /\ (forall l, eq_match (Some (JArr l)) (JStr f) = existsb (jsval_eqb (JStr f)) l)
  /\ eq_match None (JStr f) = false.
Proof.
  repeat split.
  - intro i. simpl. apply orb_false_r.
Qed.

(** C9 counterexample: [PUT /receitas/:id] stores an ingredient array, and
    [DELETE /receitas/muitas/ovo] then deletes that recipe although its
    [ingredientes] is not the string "ovo". *)
Lemma c9_array_ingredient_deleted :
  fst (Part000.put_receita deps_model "000000000000000000000007"
         (JObj [("titulo", JStr "Bolo"); ("preparo", JStr "assar");
                ("ingredientes", JArr [JStr "ovo"; JStr "leite"])]) st_recipe)
  = SendText 200 "Receita atualizada!"
  /\ Part000.delete_receitas_muitas "ovo"
       (snd (Part000.put_receita deps_model "000000000000000000000007"
               (JObj [("titulo", JStr "Bolo"); ("preparo", JStr "assar");
                      ("ingredientes", JArr [JStr "ovo"; JStr "leite"])]) st_recipe))
     = (SendStatus 204, mkStore [] [] [] 8).
Proof. split; vm_compute; reflexivity. Qed.

(** * Further properties of the handlers *)

(** ** Objects and store operations *)

Lemma lookup_obj_set_same (o : doc) (k : string) (v : jsval) :
  lookup k (obj_set o k v) = Some v.
Proof.
  induction o as [|[k' v'] o IH]; simpl.
  - rewrite String.eqb_refl. reflexivity.
  - destruct (String.eqb k k') eqn:E; simpl.
    + rewrite String.eqb_refl. reflexivity.
    + rewrite E. exact IH.
Qed.

Lemma lookup_obj_set_other (o : doc) (k k' : string) (v : jsval) :
  k <> k' -> lookup k (obj_set o k' v) = lookup k o.
Proof.
  intro Hk. apply String.eqb_neq in Hk.
  induction o as [|[k2 v2] o IH]; simpl.
  - rewrite Hk. reflexivity.
  - destruct (String.eqb k' k2) eqn:E; simpl.
    + apply String.eqb_eq in E. subst k2. rewrite Hk. reflexivity.
    + rewrite IH. reflexivity.
Qed.

Lemma update_first_none (f : query) (sets : doc) (l : list doc) :
  List.find (matches f) l = None -> update_first f sets l = (false, l).
Proof.
  induction l as [|d l IH]; simpl; [reflexivity|].
  destruct (matches f d); [discriminate|].
  intro H. rewrite (IH H). reflexivity.
Qed.

Lemma update_first_some (f : query) (sets : doc) (l : list doc) (d : doc) :
  List.find (matches f) l = Some d ->
  exists l', update_first f sets l = (true, l')
             /\ In (obj_assign d sets) l' /\ length l' = length l
             /\ (forall d', In d' l' -> In d' l \/ d' = obj_assign d sets).
Proof.
  induction l as [|d0 l IH]; simpl; [discriminate|].
  destruct (matches f d0).
  - intro H. injection H as <-. exists (obj_assign d0 sets :: l).
    repeat split; simpl; auto.
    intros d' [<- | Hd]; auto.
  - intro H. destruct (IH H) as (l' & E & Hin & Hlen & Hsub).
    rewrite E. exists (d0 :: l'). repeat split; simpl; auto.
    intros d' [<- | Hd]; auto. destruct (Hsub d' Hd); auto.
Qed.

Lemma find_none_existsb (f : doc -> bool) (l : list doc) :
  List.find f l = None <-> existsb f l = false.
Proof.
  induction l as [|d l IH]; simpl; [tauto|].
  destruct (f d); simpl; [split; discriminate | exact IH].
Qed.

(** ** The sweep *)

Lemma filter_all_negb (g : doc -> bool) (l : list doc) :
  filter g l = [] -> filter (fun d => negb (g d)) l = l.
Proof.
  induction l as [|d l IH]; simpl; [reflexivity|].
  destruct (g d); simpl; [discriminate|]. intro H. rewrite (IH H). reflexivity.
Qed.

Lemma sweep_participants (X : deps) (now : Z) (st : store) :
  participants (App.removeInactiveParticipants X now st)
  = filter (fun p => negb (lt_match (lookup "lastStatus" p) (now - 10000)))
      (participants st).
Proof.
  unfold App.removeInactiveParticipants.
  destruct (find (FLt "lastStatus" (now - 10000)) Participants st) as [|q qs] eqn:E.
  - simpl. symmetry. apply filter_all_negb. exact E.
  - simpl Nat.leb. cbv iota. rewrite fold_insert_leave. reflexivity.
Qed.

Lemma sweep_keeps (X : deps) (now : Z) (st : store) (p : doc) (t : Z) :
  In p (participants st) -> lookup "lastStatus" p = Some (JNum t) ->
  now - 10000 <= t -> In p (participants (App.removeInactiveParticipants X now st)).
Proof.
  intros Hin Ht Hle. rewrite sweep_participants, filter_In. split; [exact Hin|].
  rewrite Ht. simpl. replace (t <? now - 10000) with false by (symmetry; apply Z.ltb_ge; lia).
  reflexivity.
Qed.

(** X1.  A second sweep at the same time changes nothing: after a sweep
    no participant is below the cutoff. *)
Theorem sweep_idempotent (X : deps) (now : Z) (st : store) :
  App.removeInactiveParticipants X now (App.removeInactiveParticipants X now st)
  = App.removeInactiveParticipants X now st.
Proof.
  unfold App.removeInactiveParticipants at 1.
  replace (find (FLt "lastStatus" (now - 10000)) Participants
             (App.removeInactiveParticipants X now st)) with (@nil doc).
  - reflexivity.
  - unfold find. simpl get_coll. rewrite sweep_participants.
    induction (participants st) as [|d l IH]; simpl; [reflexivity|].
    destruct (lt_match (lookup "lastStatus" d) (now - 10000)) eqn:E; simpl;
      [exact IH|]. rewrite E. exact IH.
Qed.

(** X2.  After a successful [POST /status] at time [t], a sweep at any
    [now <= t + 10000] keeps a participant with the requester's sanitised
    name and [lastStatus = t]. *)
Theorem heartbeat_survives_sweep (X : deps) (u : string) (t now : Z)
  (st st1 : store) :
  App.post_status X (Some u) t st = (SendStatus 200, st1) -> now - 10000 <= t ->
  exists p, In p (participants (App.removeInactiveParticipants X now st1))
            /\ matches (FEq "name" (JStr (App.sanitize X u))) p = true
            /\ lookup "lastStatus" p = Some (JNum t).
Proof.
  intros H Hle. unfold App.post_status, update_one in H. simpl get_coll in H.
  destruct (List.find (matches (FEq "name" (JStr (App.sanitize X u)))) (participants st))
    as [d|] eqn:F.
  - destruct (update_first_some _ [("lastStatus", JNum t)] _ _ F)
      as (l' & E & Hin & _ & _).
    rewrite E in H. injection H as <-.
    exists (obj_assign d [("lastStatus", JNum t)]).
    assert (Hls : lookup "lastStatus" (obj_assign d [("lastStatus", JNum t)]) = Some (JNum t))
      by apply lookup_obj_set_same.
    split; [|split].
    + apply sweep_keeps with (t := t); [exact Hin | exact Hls | exact Hle].
    + simpl. unfold obj_assign; simpl.
      rewrite lookup_obj_set_other by discriminate.
      apply find_some in F. destruct F as [_ F]. exact F.
    + exact Hls.
  - rewrite update_first_none in H by exact F. discriminate H.
Qed.

(** X3.  After a successful join at time [t], a sweep at any
    [now <= t + 10000] keeps the new participant. *)
Theorem join_survives_sweep (X : deps) (s : string) (t t' now : Z) (st st1 : store) :
  App.post_participants X (JObj [("name", JStr s)]) t t' st = (SendStatus 201, st1) ->
  now - 10000 <= t ->
  In [("_id", JOid (next_oid st)); ("name", JStr (App.sanitize X s)); ("lastStatus", JNum t)]
     (participants (App.removeInactiveParticipants X now st1)).
Proof.
  intros H Hle. apply sweep_keeps with (t := t); [| reflexivity | exact Hle].
  unfold App.post_participants in H. rewrite joi_participant_name in H.
  destruct (String.eqb s ""); simpl in H; [discriminate H|].
  destruct (find_one _ _ _); [discriminate H|].
  injection H as <-. simpl. apply in_or_app. right. left. reflexivity.
Qed.

(** ** Outcomes of the write handlers *)

(** Case analysis on the next [match] or [if] in the goal or a hypothesis. *)
Ltac break_match :=
  match goal with
  | |- context [match ?x with _ => _ end] => destruct x eqn:?
  | H : context [match ?x with _ => _ end] |- _ => destruct x eqn:?
  end.

(** X4.  A join refused for an invalid body (422) or a taken name (409)
    leaves the store unchanged, in both variants: those answers are sent
    before any write. *)
Theorem join_refusal_store_unchanged (X : deps) (body : jsval) (now now' : Z)
  (st : store) :
  (fst (App.post_participants X body now now' st) = SendStatus 422
   \/ fst (App.post_participants X body now now' st) = SendStatus 409 ->
   snd (App.post_participants X body now now' st) = st)
  /\ (fst (Part000.post_participants X body now now' st) = SendErrors 422
      \/ fst (Part000.post_participants X body now now' st)
         = SendText 409 "Participant already exist!" ->
      snd (Part000.post_participants X body now now' st) = st).
Proof.
  unfold App.post_participants, Part000.post_participants.
  split; intro H; repeat (break_match; simpl in *); try reflexivity;
    destruct H; discriminate.
Qed.

(** X5.  app.js [POST /messages] either answers 201 and appends exactly
    one message, [{from: sanitised header, to, text, type: sanitised body
    fields, time}], with a fresh id and nothing else changed, or leaves the
    store untouched. *)
Theorem post_message_outcome (X : deps) (u : string) (body : jsval) (now : Z)
  (st : store) :
  (fst (App.post_messages X (Some u) body now st) <> SendStatus 201 ->
   snd (App.post_messages X (Some u) body now st) = st)
  /\ (fst (App.post_messages X (Some u) body now st) = SendStatus 201 ->
      exists to text ty,
        get_str body "to" = Some to /\ get_str body "text" = Some text
        /\ get_str body "type" = Some ty
        /\ snd (App.post_messages X (Some u) body now st)
           = mkStore (participants st)
               (messages st
                ++ [[("_id", JOid (next_oid st)); ("from", JStr (App.sanitize X u));
                     ("to", JStr (App.sanitize X to));
                     ("text", JStr (App.sanitize X text));
                     ("type", JStr (App.sanitize X ty));
                     ("time", JStr (format_time X now))]])
               (receitas st) (N.succ (next_oid st))).
Proof.
  unfold App.post_messages. split; intro H.
  - repeat (break_match; simpl in *); try reflexivity; congruence.
  - repeat (break_match; simpl in *); try congruence.
    do 3 eexists. repeat split; reflexivity.
Qed.

Lemma assign_cons_fresh (k : string) (v : jsval) (acc kvs : doc) :
  lookup k kvs = None -> obj_assign ((k, v) :: acc) kvs = (k, v) :: obj_assign acc kvs.
Proof.
  revert acc. induction kvs as [|[k' v'] kvs IH]; intros acc H; [reflexivity|].
  simpl in H. destruct (String.eqb k k') eqn:E; [discriminate H|].
  unfold obj_assign; simpl.
  rewrite String.eqb_sym, E. apply IH. exact H.
Qed.

Lemma obj_assign_app (base l1 l2 : doc) :
  obj_assign base (l1 ++ l2)%list = obj_assign (obj_assign base l1) l2.
Proof. unfold obj_assign. apply fold_left_app. Qed.

Lemma lookup_app_none (k : string) (l1 l2 : doc) :
  lookup k l1 = None -> lookup k l2 = None -> lookup k (l1 ++ l2)%list = None.
Proof.
  intros H1 H2. induction l1 as [|[k' v'] l1 IH]; simpl in *; [exact H2|].
  destruct (String.eqb k k'); [discriminate H1 | exact (IH H1)].
Qed.

Lemma lookup_app_skip (k k' : string) (v : jsval) (l1 l2 : doc) :
  k <> k' -> lookup k (l1 ++ (k', v) :: l2)%list = lookup k (l1 ++ l2)%list.
Proof.
  intro Hk. induction l1 as [|[k2 v2] l1 IH]; simpl.
  - apply String.eqb_neq in Hk. rewrite Hk. reflexivity.
  - destruct (String.eqb k k2); [reflexivity | exact IH].
Qed.

(** The message schema of app.js looks at [from] only for presence. *)
Lemma joi_message_from_any (x y : jsval) (rest : doc) :
  joi_object App.schemaMessage (JObj (("from", x) :: rest))
  = joi_object App.schemaMessage (JObj (("from", y) :: rest)).
Proof. reflexivity. Qed.

(** X6.  In app.js a [from] key anywhere in the [POST /messages] body has
    no effect: the response and the store are those of the same body
    without it. *)
Theorem post_message_ignores_body_from (X : deps) (u : string) (v : jsval)
  (kvs1 kvs2 : doc) (now : Z) (st : store) :
  lookup "from" kvs1 = None -> lookup "from" kvs2 = None ->
  App.post_messages X (Some u) (JObj (kvs1 ++ ("from", v) :: kvs2)) now st
  = App.post_messages X (Some u) (JObj (kvs1 ++ kvs2)) now st.
Proof.
  intros H1 H2. unfold App.post_messages. simpl spread_fields.
  destruct (find_one _ _ _); [|reflexivity].
  rewrite !obj_assign_app, (assign_cons_fresh _ _ _ kvs1 H1).
  replace (obj_assign (("from", JStr u) :: obj_assign [] kvs1) (("from", v) :: kvs2))
    with (obj_assign (("from", v) :: obj_assign [] kvs1) kvs2)
    by reflexivity.
  rewrite !(assign_cons_fresh _ _ _ kvs2 H2), (joi_message_from_any v (JStr u)).
  unfold get_str, body_get. simpl spread_fields.
  rewrite !(lookup_app_skip _ "from" v kvs1 kvs2) by discriminate.
  reflexivity.
Qed.

Lemma strict_eq_str_true (v : option jsval) (s : string) :
  strict_eq_str v s = true -> v = Some (JStr s).
Proof.
  destruct v as [[]|]; simpl; try discriminate.
  intro H. apply String.eqb_eq in H. subst. reflexivity.
Qed.

Lemma delete_first_split (f : query) (l : list doc) (d : doc) :
  List.find (matches f) l = Some d ->
  exists l1 l2, l = (l1 ++ d :: l2)%list /\ delete_first f l = (l1 ++ l2)%list.
Proof.
  induction l as [|d0 l IH]; simpl; [discriminate|].
  destruct (matches f d0).
  - intro H. injection H as <-. exists [], l. split; reflexivity.
  - intro H. destruct (IH H) as (l1 & l2 & Hl & E).
    rewrite E. exists (d0 :: l1), l2. rewrite Hl. split; reflexivity.
Qed.

(** X7.  app.js [DELETE /messages/:id] changes the store only when it
    answers 200.  Then the message found by the id has [from] equal to the
    sanitised header, and exactly that message, the first with the id, is
    removed; the other messages keep their order and the rest of the store
    is unchanged. *)
Theorem delete_message_outcome (X : deps) (id u : string) (st : store) :
  (fst (App.delete_message X id (Some u) st) <> SendStatus 200 ->
   snd (App.delete_message X id (Some u) st) = st)
  /\ (fst (App.delete_message X id (Some u) st) = SendStatus 200 ->
      exists oid m l1 l2,
        ObjectId X id = Some oid
        /\ find_one (FEq "_id" (JOid oid)) Messages st = Some m
        /\ lookup "from" m = Some (JStr (App.sanitize X u))
        /\ messages st = (l1 ++ m :: l2)%list
        /\ snd (App.delete_message X id (Some u) st)
           = mkStore (participants st) (l1 ++ l2) (receitas st) (next_oid st)).
Proof.
  unfold App.delete_message. split; intro H.
  - repeat (break_match; simpl in *); try reflexivity; congruence.
  - destruct (ObjectId X id) as [oid|]; [|discriminate].
    destruct (find_one _ Messages st) as [m|] eqn:Hf; [|discriminate].
    destruct (strict_eq_str (lookup "from" m) (App.sanitize X u)) eqn:Hs;
      [|discriminate].
    destruct (delete_first_split _ (messages st) _ Hf) as (l1 & l2 & Hl & E).
    exists oid, m, l1, l2. repeat split; try assumption.
    + apply strict_eq_str_true, Hs.
    + simpl. unfold delete_one. simpl get_coll. rewrite E. reflexivity.
Qed.

Lemma update_first_split (f : query) (sets : doc) (l : list doc) (d : doc) :
  List.find (matches f) l = Some d ->
  exists l1 l2, l = (l1 ++ d :: l2)%list
                /\ update_first f sets l = (true, (l1 ++ obj_assign d sets :: l2)%list).
Proof.
  induction l as [|d0 l IH]; simpl; [discriminate|].
  destruct (matches f d0).
  - intro H. injection H as <-. exists [], l. split; reflexivity.
  - intro H. destruct (IH H) as (l1 & l2 & Hl & E).
    rewrite E. exists (d0 :: l1), l2. rewrite Hl. split; reflexivity.
Qed.

Lemma delete_first_none (f : query) (l : list doc) :
  List.find (matches f) l = None -> delete_first f l = l.
Proof.
  induction l as [|d l IH]; simpl; [reflexivity|].
  destruct (matches f d); [discriminate|].
  intro H. rewrite (IH H). reflexivity.
Qed.

Lemma find_some_existsb (f : doc -> bool) (l : list doc) (d : doc) :
  List.find f l = Some d -> existsb f l = true.
Proof.
  intro H. apply find_some in H. destruct H as [Hin Hf].
  apply existsb_exists. exists d. split; assumption.
Qed.



(** X8.  app.js [PUT /messages/:id] changes something only when it
    answers 200.  Then the message found by the id has the raw [user]
    header as its [from], and it is replaced in place by the same document
    with [from] set to the sanitised name and [to], [text], [type] set to
    the sanitised body fields; the rest of the store is unchanged. *)
Theorem put_message_outcome (X : deps) (id u : string) (body : jsval) (st : store) :
  (fst (App.put_message X id (Some u) body st) <> SendStatus 200 ->
   snd (App.put_message X id (Some u) body st) = st)
  /\ (fst (App.put_message X id (Some u) body st) = SendStatus 200 ->
      exists oid m to text ty l1 l2,
        ObjectId X id = Some oid
        /\ find_one (FEq "_id" (JOid oid)) Messages st = Some m
        /\ lookup "from" m = Some (JStr u)
        /\ get_str body "to" = Some to /\ get_str body "text" = Some text
        /\ get_str body "type" = Some ty
        /\ messages st = (l1 ++ m :: l2)%list
        /\ snd (App.put_message X id (Some u) body st)
           = mkStore (participants st)
               (l1 ++ obj_assign m [("from", JStr (App.sanitize X u));
                                    ("to", JStr (App.sanitize X to));
                                    ("text", JStr (App.sanitize X text));
                                    ("type", JStr (App.sanitize X ty))] :: l2)
               (receitas st) (next_oid st)).
Proof.
  unfold App.put_message. split; intro H.
  - repeat (break_match; simpl in *); try reflexivity; congruence.
  - destruct (find_one (FEq "name" _) Participants st); [|discriminate].
    destruct (negb _); [discriminate|].
    destruct (get_str body "to") as [to|]; [|discriminate].
    destruct (get_str body "text") as [text|]; [|discriminate].
    destruct (get_str body "type") as [ty|]; [|discriminate].
    destruct (ObjectId X id) as [oid|]; [|discriminate].
    destruct (find_one (FEq "_id" _) Messages st) as [m|] eqn:Hf; [|discriminate].
    destruct (strict_eq_str (lookup "from" m) u) eqn:Hs; [|discriminate].
    unfold update_one. simpl get_coll.
    destruct (update_first_split _
                [("from", JStr (App.sanitize X u)); ("to", JStr (App.sanitize X to));
                 ("text", JStr (App.sanitize X text)); ("type", JStr (App.sanitize X ty))]
                _ _ Hf) as (l1 & l2 & Hl & E).
    simpl get_coll in Hl, E. rewrite E. simpl.
    exists oid, m, to, text, ty, l1, l2.
    repeat split; try reflexivity; try assumption.
    apply strict_eq_str_true, Hs.
Qed.

(** X9.  app.js [POST /status]: when no participant has the sanitised
    name the answer is 404 and nothing changes; otherwise the answer is 200
    and the first such participant gets [lastStatus = now] in place, the
    rest of the store being unchanged. *)
Theorem post_status_outcome (X : deps) (u : string) (now : Z) (st : store) :
  (find_one (FEq "name" (JStr (App.sanitize X u))) Participants st = None ->
   App.post_status X (Some u) now st = (SendStatus 404, st))
  /\ (forall p, find_one (FEq "name" (JStr (App.sanitize X u))) Participants st = Some p ->
      exists l1 l2,
        participants st = (l1 ++ p :: l2)%list
        /\ App.post_status X (Some u) now st
           = (SendStatus 200,
              mkStore (l1 ++ obj_assign p [("lastStatus", JNum now)] :: l2)
                (messages st) (receitas st) (next_oid st))).
Proof.
  unfold App.post_status, update_one. simpl get_coll. split.
  - intro H. rewrite (update_first_none _ _ (participants st) H). destruct st. reflexivity.
  - intros p H. destruct (update_first_split _ [("lastStatus", JNum now)] (participants st) _ H)
      as (l1 & l2 & Hl & E).
    exists l1, l2. rewrite E. split; [exact Hl | reflexivity].
Qed.

(** X10.  In app.js a requester whose sanitised name is not a participant
    is refused: [POST /messages] and [PUT /messages/:id] answer 422 and
    [GET /messages] answers 409, whatever the body, id and limit, and the
    store is unchanged. *)
Theorem app_unknown_requester_refused (X : deps) (u id : string) (lim : option string)
  (body : jsval) (now : Z) (st : store) :
  find_one (FEq "name" (JStr (App.sanitize X u))) Participants st = None ->
  App.post_messages X (Some u) body now st = (SendStatus 422, st)
  /\ App.get_messages X (Some u) lim st = SendStatus 409
  /\ App.put_message X id (Some u) body st = (SendStatus 422, st).
Proof.
  intro H. unfold App.post_messages, App.get_messages, App.put_message.
  rewrite H. repeat split.
Qed.

(** X11.  In part_000 a [user] header that is no participant's name is
    refused with 409 "Participant do not exist!" by [POST /messages] and
    [GET /messages], and the store is unchanged. *)
Theorem part000_unknown_requester_refused (X : deps) (u : string) (lim : option string)
  (body : jsval) (now : Z) (st : store) :
  find_one (FEq "name" (JStr u)) Participants st = None ->
  Part000.post_messages X (Some u) body now st
  = (SendText 409 "Participant do not exist!", st)
  /\ Part000.get_messages (Some u) lim st = [SendText 409 "Participant do not exist!"].
Proof.
  intro H. unfold Part000.post_messages, Part000.get_messages, Part000.user_val.
  rewrite H. split; reflexivity.
Qed.

(** X12.  part_000 [GET /messages] for a participant [u] with a [limit]
    string [l]: [parseInt(l) <= 0] gives 422; a positive [n] gives the [n]
    newest visible messages, newest first; NaN gives all visible messages,
    newest first.  Every 200 write is followed by a second write that
    fails. *)
Theorem part000_get_messages_limit (u l : string) (st : store) :
  find_one (FEq "name" (JStr u)) Participants st <> None ->
  Part000.get_messages (Some u) (Some l) st
  = match parse_int l with
    | Some n =>
        if n <=? 0 then [SendStatus 422]
        else [SendDocs 200
                (firstn (Z.to_nat n) (rev (filter (visible_spec u) (messages st))));
              Unhandled]
    | None => [SendDocs 200 (rev (filter (visible_spec u) (messages st))); Unhandled]
    end.
Proof.
  intro H. unfold Part000.get_messages, Part000.user_val.
  destruct (find_one _ _ _); [|contradiction].
  rewrite find_visibility.
  destruct (parse_int l) as [n|]; [|rewrite js_slice_from_0; reflexivity].
  case_eq (n <=? 0); intro Hn; [reflexivity|].
  rewrite js_slice_from_neg; [reflexivity|]. apply Z.leb_gt in Hn. lia.
Qed.

(** X13.  part_000 [DELETE /receitas/:id]: an id [ObjectId] rejects gives
    500; an id of no recipe gives 404 and leaves the store unchanged; an id
    of a recipe gives 204 and removes exactly the first recipe with that
    id, nothing else. *)
Theorem delete_receita_outcome (X : deps) (id : string) (st : store) :
  (ObjectId X id = None -> Part000.delete_receita X id st = (SendErr 500, st))
  /\ (forall oid, ObjectId X id = Some oid ->
      find_one (FEq "_id" (JOid oid)) Receitas st = None ->
      Part000.delete_receita X id st = (SendText 404 "Essa receita não existe!", st))
  /\ (forall oid r, ObjectId X id = Some oid ->
      find_one (FEq "_id" (JOid oid)) Receitas st = Some r ->
      exists l1 l2,
        receitas st = (l1 ++ r :: l2)%list
        /\ Part000.delete_receita X id st
           = (SendText 204 "Receita deletada com sucesso!",
              mkStore (participants st) (messages st) (l1 ++ l2) (next_oid st))).
Proof.
  unfold Part000.delete_receita, delete_one_result, delete_one. simpl get_coll.
  repeat split.
  - intro H. rewrite H. reflexivity.
  - intros oid Ho Hf. rewrite Ho.
    rewrite (proj1 (find_none_existsb _ (receitas st)) Hf),
      (delete_first_none _ (receitas st) Hf).
    destruct st. reflexivity.
  - intros oid r Ho Hf. rewrite Ho, (find_some_existsb _ (receitas st) _ Hf).
    destruct (delete_first_split _ (receitas st) _ Hf) as (l1 & l2 & Hl & E).
    exists l1, l2. rewrite E. split; [exact Hl | reflexivity].
Qed.

(** X14.  part_000 [PUT /receitas/:id]: an id [ObjectId] rejects gives
    500; an id of no recipe gives 404 and leaves the store unchanged; an id
    of a recipe gives 200 and replaces the first recipe with that id in
    place by one whose [titulo], [preparo] and [ingredientes] are the body's
    values ([null] when absent), every other field (the [_id] among them)
    unchanged. *)
Theorem put_receita_outcome (X : deps) (id : string) (body : jsval) (st : store) :
  (ObjectId X id = None -> Part000.put_receita X id body st = (SendErr 500, st))
  /\ (forall oid, ObjectId X id = Some oid ->
      find_one (FEq "_id" (JOid oid)) Receitas st = None ->
      Part000.put_receita X id body st = (SendText 404 "esse item não existe!", st))
  /\ (forall oid r, ObjectId X id = Some oid ->
      find_one (FEq "_id" (JOid oid)) Receitas st = Some r ->
      exists l1 l2 r',
        receitas st = (l1 ++ r :: l2)%list
        /\ Part000.put_receita X id body st
           = (SendText 200 "Receita atualizada!",
              mkStore (participants st) (messages st) (l1 ++ r' :: l2) (next_oid st))
        /\ (forall k, In k ["titulo"; "preparo"; "ingredientes"] ->
            lookup k r' = Some (match body_get body k with Some v => v | None => JNull end))
        /\ (forall k, ~ In k ["titulo"; "preparo"; "ingredientes"] ->
            lookup k r' = lookup k r)).
Proof.
  unfold Part000.put_receita, update_one. simpl get_coll.
  repeat split.
  - intro H. rewrite H. reflexivity.
  - intros oid Ho Hf. rewrite Ho, (update_first_none _ _ (receitas st) Hf).
    destruct st. reflexivity.
  - intros oid r Ho Hf. rewrite Ho.
    match goal with |- context [update_first ?f ?sets (receitas st)] =>
      destruct (update_first_split f sets (receitas st) r Hf) as (l1 & l2 & Hl & E)
    end.
    rewrite E. eexists l1, l2, _. split; [exact Hl|]. split; [reflexivity|].
    unfold obj_assign; simpl. split.
    + intros k [<- | [<- | [<- | []]]].
      * rewrite !lookup_obj_set_other by discriminate. apply lookup_obj_set_same.
      * rewrite lookup_obj_set_other by discriminate. apply lookup_obj_set_same.
      * apply lookup_obj_set_same.
    + intros k Hk.
      rewrite !lookup_obj_set_other; try reflexivity; intros ->; apply Hk; simpl; tauto.
Qed.

Lemma find_all_docs (c : coll) (st : store) : find (FAnd []) c st = get_coll c st.
Proof.
  unfold find. induction (get_coll c st) as [|d l IH]; [reflexivity|].
  change (filter (matches (FAnd [])) (d :: l)) with (d :: filter (matches (FAnd [])) l).
  rewrite IH. reflexivity.
Qed.

(** X15.  After app.js answers 201 to [POST /participants],
    [GET /participants] lists the participants there were before followed
    by the new one: a fresh id, the sanitised body name and the join
    time. *)
Theorem participants_listed_after_join (X : deps) (body : jsval) (t t' : Z) (st st1 : store) :
  App.post_participants X body t t' st = (SendStatus 201, st1) ->
  exists s, get_str body "name" = Some s
            /\ App.get_participants st1
               = SendDocs 200 (participants st
                               ++ [[("_id", JOid (next_oid st));
                                    ("name", JStr (App.sanitize X s));
                                    ("lastStatus", JNum t)]])%list.
Proof.
  intro H. unfold App.post_participants in H.
  destruct (negb _); [discriminate|].
  destruct (get_str body "name") as [s|]; [|discriminate].
  destruct (find_one _ _ _); [discriminate|].
  injection H as <-. exists s. split; [reflexivity|].
  unfold App.get_participants. rewrite find_all_docs. reflexivity.
Qed.

(** ** Instances of the properties with hypotheses *)

(** Ana sends a heartbeat at 20000 in [st_sweep]; a sweep at 25000 keeps her. *)
Lemma heartbeat_survives_sweep_witness :
  App.post_status deps_model (Some "Ana") 20000 st_sweep
  = (SendStatus 200, snd (App.post_status deps_model (Some "Ana") 20000 st_sweep))
  /\ 25000 - 10000 <= 20000
  /\ exists p,
       In p (participants (App.removeInactiveParticipants deps_model 25000
                            (snd (App.post_status deps_model (Some "Ana") 20000 st_sweep))))
       /\ matches (FEq "name" (JStr (App.sanitize deps_model "Ana"))) p = true
       /\ lookup "lastStatus" p = Some (JNum 20000).
Proof.
  assert (H : App.post_status deps_model (Some "Ana") 20000 st_sweep
              = (SendStatus 200,
                 snd (App.post_status deps_model (Some "Ana") 20000 st_sweep)))
    by (vm_compute; reflexivity).
  split; [exact H|]. split; [lia|].
  exact (heartbeat_survives_sweep deps_model "Ana" 20000 25000 st_sweep _ H
           ltac:(lia)).
Defined.

(** Caio joins [st_sweep] at 20000; a sweep at 25000 keeps him. *)
Lemma join_survives_sweep_witness :
  App.post_participants deps_model (JObj [("name", JStr "Caio")]) 20000 20000 st_sweep
  = (SendStatus 201,
     snd (App.post_participants deps_model (JObj [("name", JStr "Caio")]) 20000 20000 st_sweep))
  /\ 25000 - 10000 <= 20000
  /\ In [("_id", JOid 2); ("name", JStr (App.sanitize deps_model "Caio"));
         ("lastStatus", JNum 20000)]
       (participants (App.removeInactiveParticipants deps_model 25000
          (snd (App.post_participants deps_model (JObj [("name", JStr "Caio")])
                  20000 20000 st_sweep)))).
Proof.
  assert (H : App.post_participants deps_model (JObj [("name", JStr "Caio")]) 20000 20000 st_sweep
              = (SendStatus 201,
                 snd (App.post_participants deps_model (JObj [("name", JStr "Caio")])
                        20000 20000 st_sweep)))
    by (vm_compute; reflexivity).
  split; [exact H|]. split; [lia|].
  exact (join_survives_sweep deps_model "Caio" 20000 20000 25000 st_sweep _ H ltac:(lia)).
Defined.

(** Ana posts with and without a body [from] of "Bia" placed after [to]. *)
Lemma post_message_ignores_body_from_witness :
  lookup "from" [("to", JStr "Todos")] = None
  /\ lookup "from" [("text", JStr "oi"); ("type", JStr "message")] = None
  /\ App.post_messages deps_model (Some "Ana")
       (JObj [("to", JStr "Todos"); ("from", JStr "Bia"); ("text", JStr "oi");
              ("type", JStr "message")]) 0 st_ana
     = App.post_messages deps_model (Some "Ana")
         (JObj [("to", JStr "Todos"); ("text", JStr "oi"); ("type", JStr "message")]) 0 st_ana.
Proof.
  split; [reflexivity|]. split; [reflexivity|].
  exact (post_message_ignores_body_from deps_model "Ana" (JStr "Bia") [("to", JStr "Todos")]
           [("text", JStr "oi"); ("type", JStr "message")] 0 st_ana eq_refl eq_refl).
Defined.

(** Zed is no participant of [st_ana]. *)
Lemma app_unknown_requester_refused_witness :
  find_one (FEq "name" (JStr (App.sanitize deps_model "Zed"))) Participants st_ana = None
  /\ App.post_messages deps_model (Some "Zed") (JObj []) 0 st_ana = (SendStatus 422, st_ana)
  /\ App.get_messages deps_model (Some "Zed") None st_ana = SendStatus 409
  /\ App.put_message deps_model "000000000000000000000005" (Some "Zed") (JObj []) st_ana
     = (SendStatus 422, st_ana).
Proof.
  assert (H : find_one (FEq "name" (JStr (App.sanitize deps_model "Zed"))) Participants st_ana
              = None) by (vm_compute; reflexivity).
  split; [exact H|].
  exact (app_unknown_requester_refused deps_model "Zed" "000000000000000000000005" None
           (JObj []) 0 st_ana H).
Defined.

Lemma part000_unknown_requester_refused_witness :
  find_one (FEq "name" (JStr "Zed")) Participants st_ana = None
  /\ Part000.post_messages deps_model (Some "Zed") (JObj []) 0 st_ana
     = (SendText 409 "Participant do not exist!", st_ana)
  /\ Part000.get_messages (Some "Zed") None st_ana
     = [SendText 409 "Participant do not exist!"].
Proof.
  assert (H : find_one (FEq "name" (JStr "Zed")) Participants st_ana = None)
    by (vm_compute; reflexivity).
  split; [exact H|].
  exact (part000_unknown_requester_refused deps_model "Zed" None (JObj []) 0 st_ana H).
Defined.

(** Ana asks part_000 for the two newest of three messages. *)
Lemma part000_get_messages_limit_witness :
  find_one (FEq "name" (JStr "Ana")) Participants st_three <> None
  /\ Part000.get_messages (Some "Ana") (Some "2") st_three
     = [SendDocs 200 [message_doc 3 "Ana" "Todos" "tres" "message";
                      message_doc 2 "Ana" "Todos" "dois" "message"]; Unhandled].
Proof.
  assert (H : find_one (FEq "name" (JStr "Ana")) Participants st_three <> None)
    by (vm_compute; discriminate).
  split; [exact H|].
  rewrite (part000_get_messages_limit "Ana" "2" st_three H).
  vm_compute. reflexivity.
Defined.

(** Caio joins [st_sweep] and is listed last. *)
Lemma participants_listed_after_join_witness :
  App.post_participants deps_model (JObj [("name", JStr "Caio")]) 20000 20000 st_sweep
  = (SendStatus 201,
     snd (App.post_participants deps_model (JObj [("name", JStr "Caio")]) 20000 20000 st_sweep))
  /\ exists s, get_str (JObj [("name", JStr "Caio")]) "name" = Some s
     /\ App.get_participants
          (snd (App.post_participants deps_model (JObj [("name", JStr "Caio")]) 20000 20000 st_sweep))
        = SendDocs 200 (participants st_sweep
                        ++ [[("_id", JOid 2); ("name", JStr (App.sanitize deps_model s));
                             ("lastStatus", JNum 20000)]])%list.
Proof.
  assert (H : App.post_participants deps_model (JObj [("name", JStr "Caio")]) 20000 20000 st_sweep
              = (SendStatus 201,
                 snd (App.post_participants deps_model (JObj [("name", JStr "Caio")])
                        20000 20000 st_sweep)))
    by (vm_compute; reflexivity).
  split; [exact H|].
  exact (participants_listed_after_join deps_model _ 20000 20000 st_sweep _ H).
Defined.
